(** * lux_review: the data-shaping cells of the notebook

    The notebook [lux_review.ipynb] loads the AI4I 2020 table with
    [pd.read_csv], drops seven columns in place, renames five columns,
    and assigns the attribute of intent twice.  This development embeds
    those cells: a data frame is an ordered association list of labelled
    columns, the kernel is a heap of data-frame objects with a variable
    environment, and every cell is a function on kernels in an error
    monad whose errors are the Python exceptions the calls raise.  The
    calls are pandas' and Lux's: [drop] and [rename] follow pandas,
    the assignment of [intent] goes through Lux's setter. *)

From Stdlib Require Import Ascii.
From stdpp Require Import gmap strings list fin_maps.

Open Scope string_scope.

(** ** Exceptions and results *)

(** The Python exceptions the cells can raise.  [LuxError] stands for
    the exception that leaves Lux's processing of an intent, a
    [TypeError] or a [KeyError] by Lux's internal state, which is not
    modelled. *)
Inductive exn : Type :=
  | KeyError (labels : list string)
  | NameError (name : string)
  | FileNotFoundError (path : string)
  | EmptyDataError
  | ParserError
  | LuxError.

Inductive res (A : Type) : Type :=
  | Ok (a : A)
  | Raise (e : exn).

Arguments Ok {A} a.
Arguments Raise {A} e.

Definition res_bind {A B : Type} (f : A → res B) (r : res A) : res B :=
  match r with
  | Ok a => f a
  | Raise e => Raise e
  end.

#[global] Instance res_mbind : MBind res := @res_bind.
#[global] Instance res_mret : MRet res := @Ok.

Definition is_Ok {A : Type} (r : res A) : bool :=
  match r with Ok _ => true | Raise _ => false end.

(** ** Data frames *)

(** The keyword [errors] of [DataFrame.drop] and [DataFrame.rename]. *)
Inductive errors_mode : Type := ErrRaise | ErrIgnore.

(** A string, or a list of strings, as Lux keeps either in a clause. *)
Inductive strs : Type :=
  | One (s : string)
  | Many (ss : list string).

(** The clauses Lux makes of the strings of an intent: an attribute (or
    alternatives), or a filter [attribute = value]. *)
Inductive clause : Type :=
  | Attribute (a : strs)
  | Filter (attribute : string) (value : strs).

(** A pandas data frame as the notebook sees it: the row labels, the
    labelled columns in their order (labels may repeat), and the
    attribute of intent that Lux attaches to a frame, as the clauses
    Lux stores. *)
Record DataFrame (V : Type) : Type := mkDataFrame {
  index : list nat;
  data : list (string * list V);
  intent : list clause
}.

(** What [pd.read_csv] finds under the path it is given: no file, a
    file without a header line, a file it cannot tokenize, or a file
    that parses to a frame.  The parser itself is pandas' and is not
    modelled. *)
Inductive csv_file (V : Type) : Type :=
  | NoFile
  | NoColumns
  | Malformed
  | Parses (d : DataFrame V).

Arguments NoFile {V}.
Arguments NoColumns {V}.
Arguments Malformed {V}.
Arguments Parses {V} d.

Arguments mkDataFrame {V} index data intent.
Arguments index {V} d.
Arguments data {V} d.
Arguments intent {V} d.

Definition loc : Type := nat.

(** The notebook kernel: the objects alive and the global variables. *)
Record kernel (V : Type) : Type := mkKernel {
  heap : gmap loc (DataFrame V);
  env : gmap string loc
}.

Arguments mkKernel {V} heap env.
Arguments heap {V} k.
Arguments env {V} k.

(** The arguments written in the cells. *)

Definition dropped_columns : list string :=
  ["Product ID"; "TWF"; "HDF"; "PWF"; "OSF"; "RNF"; "UDI"].

Definition rename_pairs : list (string * string) :=
  [("Air temperature [K]", "Air temperature (K)");
   ("Process temperature [K]", "Process temperature (K)");
   ("Rotational speed [rpm]", "Rotational speed (rpm)");
   ("Torque [Nm]", "Torque (Nm)");
   ("Tool wear [min]", "Tool wear (min)")].

(** The dict literal passed as [columns=] to [rename]. *)
Definition rename_columns : gmap string string := list_to_map rename_pairs.

(** A dict literal in general, from its items as written: a key written
    twice takes its last value and keeps its first place. *)
Definition dict_of (items : list (string * string)) : gmap string string :=
  list_to_map (reverse items).

Definition dict_keys (items : list (string * string)) : list string :=
  reverse (remove_dups (reverse items.*1)).

Definition csv_path : string := "ai4i2020.csv".

Definition old_names : list string := rename_pairs.*1.
Definition new_names : list string := rename_pairs.*2.

Definition intent_type : list string := ["Type"].
Definition intent_failure : list string := ["Machine failure"].

(** Modelled from the spec: the file [ai4i2020.csv] read by the first
    cell is missing from the sources; the spec gives it 14 columns, and
    these are the header of the AI4I 2020 data set, which holds every
    label the cells name. *)
Definition ai4i_columns : list string :=
  ["UDI"; "Product ID"; "Type"; "Air temperature [K]";
   "Process temperature [K]"; "Rotational speed [rpm]"; "Torque [Nm]";
   "Tool wear [min]"; "Machine failure"; "TWF"; "HDF"; "PWF"; "OSF"; "RNF"].

(** Modelled from the spec: the row count of the missing data file. *)
Definition ai4i_rows : Z := 10000.

(** A square bracket somewhere in a column label. *)
Fixpoint has_bracket (s : string) : bool :=
  match s with
  | EmptyString => false
  | String c s' =>
      if decide (c = "["%char) then true
      else if decide (c = "]"%char) then true
      else has_bracket s'
  end.

(** [c in s] *)
Fixpoint contains (c : ascii) (s : string) : bool :=
  match s with
  | EmptyString => false
  | String a s' => if decide (a = c) then true else contains c s'
  end.

(** [s.split(c)] *)
Fixpoint split_on (c : ascii) (s : string) : list string :=
  match s with
  | EmptyString => [EmptyString]
  | String a s' =>
      if decide (a = c) then EmptyString :: split_on c s'
      else match split_on c s' with
           | x :: xs => String a x :: xs
           | [] => [String a EmptyString]
           end
  end.

(** [(s[0:i], s[i+1:])] for [i = s.index(c)], when [c] is in [s]. *)
Fixpoint cut_at (c : ascii) (s : string) : option (string * string) :=
  match s with
  | EmptyString => None
  | String a s' =>
      if decide (a = c) then Some (EmptyString, s')
      else prod_map (String a) id <$> cut_at c s'
  end.

(** Lux's parser on one string of an intent: a string with ["="] is a
    filter on what stands before the first ["="], the others name an
    attribute; a ["|"] anywhere in the string makes the value, or the
    attribute, the list of alternatives. *)
Definition parse_clause (s : string) : clause :=
  match cut_at "="%char s with
  | Some (var, rest) =>
      Filter var
        (if contains "|"%char s then Many (split_on "|"%char rest)
         else One rest)
  | None =>
      Attribute
        (if contains "|"%char s then Many (split_on "|"%char s) else One s)
  end.

Definition parse_intent (names : list string) : list clause :=
  parse_clause <$> names.

Section frame.
Context {V : Type}.

Implicit Types (d t : DataFrame V) (k : kernel V) (l : loc).

(** [df.columns] *)
Definition columns d : list string := (data d).*1.

(** The cell values, column by column. *)
Definition values d : list (list V) := (data d).*2.

Definition nrows d : nat := length (index d).

(** The labels of [labels] that no column carries. *)
Definition missing_labels (labels : list string) d : list string :=
  filter (λ c, c ∉ columns d) labels.

(** The labels the [KeyError] of [drop] names: the missing ones when
    the column labels are distinct, all the labels asked for when some
    column label repeats. *)
Definition not_found (labels : list string) d : list string :=
  if decide (NoDup (columns d)) then missing_labels labels d else labels.

(** [DataFrame.drop(columns=labels, errors=...)]: with
    [errors='raise'] any label that is no column raises [KeyError];
    otherwise every column carrying one of the labels goes. *)
Definition drop (labels : list string) (errors : errors_mode) d
  : res (DataFrame V) :=
  match errors, missing_labels labels d with
  | ErrRaise, _ :: _ => Raise (KeyError (not_found labels d))
  | _, _ =>
      Ok {| index := index d;
            data := filter (λ c, c.1 ∉ labels) (data d);
            intent := intent d |}
  end.

(** What a dict mapper does to one label: [mapper.get(c, c)]. *)
Definition relabel (mapper : gmap string string) (c : string) : string :=
  default c (mapper !! c).

(** [DataFrame.rename(columns=mapper, errors=...)], for the dict
    literal [mapper]: with [errors='raise'] a key that is no column
    raises [KeyError], naming the missing keys in the order of the
    dict; the default, [errors='ignore'], maps every label through the
    dict and leaves the others. *)
Definition rename (mapper : list (string * string)) (errors : errors_mode) d
  : res (DataFrame V) :=
  match errors, missing_labels (dict_keys mapper) d with
  | ErrRaise, _ :: _ =>
      Raise (KeyError (missing_labels (dict_keys mapper) d))
  | _, _ =>
      Ok {| index := index d;
            data := prod_map (relabel (dict_of mapper)) id <$> data d;
            intent := intent d |}
  end.

(** The two calls as the cells make them:
    [drop(columns=[...], inplace=True)] keeps the default
    [errors='raise']; [rename(columns={...})] keeps the default
    [errors='ignore']. *)
Definition project d : res (DataFrame V) :=
  drop dropped_columns ErrRaise d.

Definition rename_cols d : res (DataFrame V) :=
  rename rename_pairs ErrIgnore d.

(** The frame with its intent replaced. *)
Definition set_intent (cs : list clause) d : DataFrame V :=
  {| index := index d; data := data d; intent := cs |}.

(** Lux's setter of [intent], called by [df.intent = names]: the list
    is parsed into clauses, which are stored and then processed against
    the metadata of the frame.  Lux computes no metadata for a frame
    with no rows, and the processing then raises. *)
Definition lux_set_intent (names : list string) d : res (DataFrame V) :=
  if decide (nrows d = 0) then Raise LuxError
  else Ok (set_intent (parse_intent names) d).

(** [pd.read_csv(path)], by what is found under the path. *)
Definition read_csv (f : csv_file V) : res (DataFrame V) :=
  match f with
  | NoFile => Raise (FileNotFoundError csv_path)
  | NoColumns => Raise EmptyDataError
  | Malformed => Raise ParserError
  | Parses d => Ok d
  end.

(** Every column holds one value per row label. *)
Definition rectangular d : Prop :=
  Forall (λ c, length c.2 = nrows d) (data d).

(** *** The kernel *)

Definition lookup_var (x : string) k : res loc :=
  match env k !! x with
  | Some l => Ok l
  | None => Raise (NameError x)
  end.

Definition load_obj l k : res (DataFrame V) :=
  match heap k !! l with
  | Some d => Ok d
  | None => Raise (NameError "df")
  end.

(** The frame the variable [df] is bound to. *)
Definition deref k : res (DataFrame V) :=
  l ← lookup_var "df" k; load_obj l k.

Definition store l d k : kernel V :=
  {| heap := <[l := d]> (heap k); env := env k |}.

Definition alloc d k : loc * kernel V :=
  let l := fresh (dom (heap k)) in
  (l, {| heap := <[l := d]> (heap k); env := env k |}).

Definition bind_var (x : string) l k : kernel V :=
  {| heap := heap k; env := <[x := l]> (env k) |}.

Definition empty_kernel : kernel V := {| heap := ∅; env := ∅ |}.

(** The variable [df] names the object at [l], which holds [d]. *)
Definition df_is k l d : Prop :=
  env k !! "df" = Some l ∧ heap k !! l = Some d.

(** A cell works in place at [k]: when it returns, [df] names the
    object it named before and no object has been created. *)
Definition in_place (cell : kernel V → res (kernel V)) k : Prop :=
  ∀ l k', env k !! "df" = Some l → cell k = Ok k' →
    env k' !! "df" = Some l ∧ dom (heap k') = dom (heap k).

(** The assignment [df = ...] of the first cell, for the frame [d]
    that [pd.read_csv] has returned. *)
Definition cell_load d k : res (kernel V) :=
  let '(l, k') := alloc d k in Ok (bind_var "df" l k').

(** [df = pd.read_csv("ai4i2020.csv")], the whole first cell. *)
Definition cell_read_csv (f : csv_file V) k : res (kernel V) :=
  d ← read_csv f; cell_load d k.

(** [df.drop(columns=[...], inplace=True)] *)
Definition cell_drop k : res (kernel V) :=
  l ← lookup_var "df" k;
  d ← load_obj l k;
  d' ← project d;
  Ok (store l d' k).

(** [df = df.rename(columns={...})] *)
Definition cell_rename k : res (kernel V) :=
  l ← lookup_var "df" k;
  d ← load_obj l k;
  d' ← rename_cols d;
  let '(l', k') := alloc d' k in
  Ok (bind_var "df" l' k').

(** [df.intent = names] *)
Definition cell_intent (names : list string) k : res (kernel V) :=
  l ← lookup_var "df" k;
  d ← load_obj l k;
  d' ← lux_set_intent names d;
  Ok (store l d' k).

(** The cleaning cells, and the whole notebook, in cell order. *)
Definition clean d : res (kernel V) :=
  k0 ← cell_load d empty_kernel;
  k1 ← cell_drop k0;
  cell_rename k1.

Definition notebook d : res (kernel V) :=
  k2 ← clean d;
  k3 ← cell_intent intent_type k2;
  cell_intent intent_failure k3.

End frame.

(** A small frame for examples: the AI4I header over [n] rows of zeros. *)
Definition sample_frame (cols : list string) (n : nat) : DataFrame Z :=
  {| index := seq 0 n;
     data := (λ c, (c, replicate n 0%Z)) <$> cols;
     intent := [] |}.

(** The kernel after the first cell has loaded a two-row AI4I frame. *)
Definition sample_kernel : kernel Z :=
  {| heap := {[0 := sample_frame ai4i_columns 2]};
     env := {["df" := 0]} |}.

(** Splits a membership in one of the literal lists into its cases. *)
Ltac split_elem H :=
  repeat (apply elem_of_cons in H as [H | H]);
  [ .. | apply elem_of_nil in H; destruct H ].

(** Decides a closed proposition by evaluation. *)
Ltac by_eval := apply (bool_decide_unpack _); vm_compute; exact I.

Example sample_notebook_runs :
  is_Ok (notebook (sample_frame ai4i_columns 3)) = true.
Proof. vm_compute. reflexivity. Qed.

(** Had the cell asked for [errors='raise'], a frame without some
    source key would make the rename raise. *)
Example sample_rename_raise_mode :
  rename rename_pairs ErrRaise (sample_frame ["Type"; "Torque [Nm]"] 2) =
  Raise (KeyError ["Air temperature [K]"; "Process temperature [K]";
                   "Rotational speed [rpm]"; "Tool wear [min]"]).
Proof. vm_compute. reflexivity. Qed.

Example sample_parse_intent :
  parse_intent ["Type"; "Type=L"; "Torque (Nm)|Tool wear (min)"; "Type=L|M"] =
  [Attribute (One "Type"); Filter "Type" (One "L");
   Attribute (Many ["Torque (Nm)"; "Tool wear (min)"]);
   Filter "Type" (Many ["L"; "M"])].
Proof. vm_compute. reflexivity. Qed.

(** A header without rows: the notebook stops at the first intent. *)
Example sample_notebook_no_rows :
  notebook (sample_frame ai4i_columns 0) = Raise LuxError.
Proof. vm_compute. reflexivity. Qed.

(** A repeated column label: the [KeyError] of the drop names all
    seven labels, not only the six that are missing. *)
Example sample_drop_repeated_label :
  project (sample_frame ["Type"; "Type"; "TWF"] 1) =
  Raise (KeyError dropped_columns).
Proof. vm_compute. reflexivity. Qed.

Example sample_clean_columns :
  (d ← clean (sample_frame ai4i_columns 2); deref d) =
  Ok {| index := [0; 1];
        data := (λ c, (c, [0%Z; 0%Z])) <$>
                ["Type"; "Air temperature (K)"; "Process temperature (K)";
                 "Rotational speed (rpm)"; "Torque (Nm)"; "Tool wear (min)";
                 "Machine failure"];
        intent := [] |}.
Proof. vm_compute. reflexivity. Qed.

(** ** Facts about the arguments of the cells *)

Lemma rename_pairs_NoDup : NoDup rename_pairs.*1.
Proof. by_eval. Qed.

Lemma rename_columns_lookup (c n : string) :
  rename_columns !! c = Some n ↔ (c, n) ∈ rename_pairs.
Proof.
  unfold rename_columns. symmetry.
  apply elem_of_list_to_map, rename_pairs_NoDup.
Qed.

Lemma rename_columns_None (c : string) :
  rename_columns !! c = None ↔ c ∉ old_names.
Proof.
  unfold rename_columns, old_names. symmetry. apply not_elem_of_list_to_map.
Qed.

(** Neither a key nor a value of the dict is one of the dropped labels,
    and no value is a key. *)
Lemma rename_pairs_fresh (c n : string) :
  (c, n) ∈ rename_pairs →
  (c ∉ dropped_columns) ∧ (n ∉ dropped_columns) ∧ (n ∉ old_names) ∧ c ≠ n.
Proof.
  intros H. unfold rename_pairs in H. split_elem H;
    injection H as -> ->; repeat split;
    by_eval.
Qed.

Lemma relabel_key (c n : string) :
  (c, n) ∈ rename_pairs → relabel rename_columns c = n.
Proof.
  intros H. apply rename_columns_lookup in H. unfold relabel. by rewrite H.
Qed.

Lemma relabel_other (c : string) :
  c ∉ old_names → relabel rename_columns c = c.
Proof.
  intros H. apply rename_columns_None in H. unfold relabel. by rewrite H.
Qed.

Lemma relabel_cases (c : string) :
  ((c ∉ old_names) ∧ relabel rename_columns c = c) ∨
  (c, relabel rename_columns c) ∈ rename_pairs.
Proof.
  unfold relabel. destruct (rename_columns !! c) as [n|] eqn:E; simpl.
  - right. by apply rename_columns_lookup.
  - left. split; [by apply rename_columns_None | done].
Qed.

Lemma relabel_idem (c : string) :
  relabel rename_columns (relabel rename_columns c) = relabel rename_columns c.
Proof.
  destruct (relabel_cases c) as [[_ E] | H]; [by rewrite !E |].
  apply rename_pairs_fresh in H as (_ & _ & H & _). by apply relabel_other.
Qed.

Lemma relabel_dropped (c : string) :
  relabel rename_columns c ∈ dropped_columns ↔ c ∈ dropped_columns.
Proof.
  destruct (relabel_cases c) as [[_ ->] | H]; [done |].
  apply rename_pairs_fresh in H as (H1 & H2 & _). tauto.
Qed.

Lemma relabel_not_old (c : string) : relabel rename_columns c ∉ old_names.
Proof.
  destruct (relabel_cases c) as [[H ->] | H]; [done |].
  by apply rename_pairs_fresh in H as (_ & _ & H & _).
Qed.

Lemma dropped_not_old (c : string) :
  c ∈ dropped_columns → relabel rename_columns c = c.
Proof.
  intros H. destruct (relabel_cases c) as [[_ ->] | H']; [done |].
  by apply rename_pairs_fresh in H' as (H' & _).
Qed.

Lemma new_names_no_bracket : Forall (λ n, has_bracket n = false) new_names.
Proof. by_eval. Qed.

Section frame_facts.
Context {V : Type}.

Implicit Types (d t : DataFrame V) (k : kernel V) (l : loc).

Lemma fst_filter (P : string → Prop) `{!∀ c, Decision (P c)}
    (cs : list (string * list V)) :
  (filter (λ c, P c.1) cs).*1 = filter P cs.*1.
Proof.
  induction cs as [| [c v] cs IH]; [done |].
  rewrite filter_cons, fmap_cons, filter_cons. cbn [fst].
  destruct (decide (P c)); rewrite ?fmap_cons, IH; done.
Qed.

Lemma missing_labels_nil (labels : list string) d :
  missing_labels labels d = [] ↔ labels ⊆ columns d.
Proof.
  unfold missing_labels. induction labels as [| c cs IH].
  - split; [intros _ x Hx; by apply elem_of_nil in Hx | done].
  - rewrite filter_cons. destruct (decide (c ∉ columns d)) as [Hc | Hc].
    + split; [done |]. intros H. destruct Hc. apply H. by left.
    + apply dec_stable in Hc. rewrite IH. split.
      * intros H x Hx. apply elem_of_cons in Hx as [-> | Hx]; auto.
      * intros H x Hx. apply H. by right.
Qed.

Lemma drop_raise_Ok (labels : list string) d :
  labels ⊆ columns d →
  drop labels ErrRaise d =
    Ok {| index := index d;
          data := filter (λ c, c.1 ∉ labels) (data d);
          intent := intent d |}.
Proof.
  intros H. apply missing_labels_nil in H. unfold drop. by rewrite H.
Qed.

Lemma drop_raise_KeyError (labels : list string) d :
  ¬ labels ⊆ columns d →
  drop labels ErrRaise d = Raise (KeyError (not_found labels d)).
Proof.
  intros H. unfold drop.
  destruct (missing_labels labels d) eqn:E; [| done].
  destruct H. by apply missing_labels_nil.
Qed.

Lemma columns_drop (labels : list string) d :
  columns {| index := index d;
             data := filter (λ c, c.1 ∉ labels) (data d);
             intent := intent d |} =
  filter (λ c, c ∉ labels) (columns d).
Proof. unfold columns. simpl. exact (fst_filter (λ c, c ∉ labels) (data d)). Qed.

Lemma dict_of_rename_pairs : dict_of rename_pairs = rename_columns.
Proof. vm_compute. reflexivity. Qed.

Lemma rename_cols_Ok d :
  rename_cols d =
    Ok {| index := index d;
          data := prod_map (relabel rename_columns) id <$> data d;
          intent := intent d |}.
Proof. unfold rename_cols, rename. by rewrite dict_of_rename_pairs. Qed.

Lemma columns_rename d :
  columns {| index := index d;
             data := prod_map (relabel rename_columns) id <$> data d;
             intent := intent d |} =
  relabel rename_columns <$> columns d.
Proof.
  unfold columns. simpl. rewrite <- !list_fmap_compose.
  by apply list_fmap_ext.
Qed.

Lemma values_rename d :
  values {| index := index d;
            data := prod_map (relabel rename_columns) id <$> data d;
            intent := intent d |} = values d.
Proof.
  unfold values. simpl. rewrite <- !list_fmap_compose.
  by apply list_fmap_ext.
Qed.

End frame_facts.


(** ** The drop and the rename as functions on tables *)

Section table_claims.
Context {V : Type}.

Implicit Types (d t : DataFrame V).

(** C2: on every table whose columns include the seven dropped labels,
    the drop returns a table whose column set is the original column
    set minus those seven labels. *)
Theorem project_column_set t :
  dropped_columns ⊆ columns t →
  ∃ t', project t = Ok t' ∧
    (list_to_set (columns t') : gset string) =
      list_to_set (columns t) ∖ list_to_set dropped_columns.
Proof.
  intros H. eexists. split; [by apply drop_raise_Ok |].
  rewrite columns_drop. apply set_eq. intros c.
  rewrite elem_of_difference, !elem_of_list_to_set, list_elem_of_filter.
  tauto.
Qed.

(** C5: the drop raises [KeyError], and returns no table, whenever one
    of the seven labels is not a column of the input; the error names
    the missing labels when the column labels are distinct and all
    seven labels otherwise, so it names the missing label in either
    case. *)
Theorem project_missing_raises t c :
  c ∈ dropped_columns → c ∉ columns t →
  project t =
    Raise (KeyError (if decide (NoDup (columns t))
                     then missing_labels dropped_columns t
                     else dropped_columns)) ∧
  c ∈ missing_labels dropped_columns t ∧
  c ∈ not_found dropped_columns t.
Proof.
  intros Hc Hn.
  assert (c ∈ missing_labels dropped_columns t) as Hm.
  { unfold missing_labels. by apply list_elem_of_filter. }
  split; [| split; [done |]].
  - apply drop_raise_KeyError. intros H. by apply Hn, H.
  - unfold not_found. by destruct (decide (NoDup (columns t))).
Qed.

(** C3: on every table that has the five old labels, after the rename
    no old label is a column, every new label is one, and the cell
    values, column by column, and the row labels are as before. *)
Theorem rename_cols_old_to_new t :
  old_names ⊆ columns t →
  ∃ t', rename_cols t = Ok t' ∧
    (∀ o, o ∈ old_names → o ∉ columns t') ∧
    (∀ n, n ∈ new_names → n ∈ columns t') ∧
    values t' = values t ∧
    index t' = index t.
Proof.
  intros H. eexists. split; [apply rename_cols_Ok |].
  rewrite columns_rename, values_rename. repeat split.
  - intros o Ho Hin. apply list_elem_of_fmap in Hin as (c & -> & _).
    by apply (relabel_not_old c).
  - intros n Hn. unfold new_names in Hn.
    apply list_elem_of_fmap in Hn as ([o n'] & -> & Hp). simpl.
    apply list_elem_of_fmap. exists o. split.
    + symmetry. by apply relabel_key.
    + apply H. unfold old_names. apply list_elem_of_fmap. by exists (o, n').
Qed.

(** C4, as amended: the rename never raises; it maps every column label
    through the dict, so a source key that is no column is passed over,
    and each column keeps its label or takes the new label its old one
    is paired with; the cell values stay. *)
Theorem rename_cols_never_raises t :
  ∃ t', rename_cols t = Ok t' ∧
    columns t' = relabel rename_columns <$> columns t ∧
    Forall2 (λ c c', c' = c ∨ (c, c') ∈ rename_pairs)
      (columns t) (columns t') ∧
    values t' = values t.
Proof.
  eexists. split; [apply rename_cols_Ok |].
  rewrite columns_rename, values_rename. repeat split.
  apply Forall2_fmap_r, Forall_Forall2_diag, Forall_forall.
  intros c _. destruct (relabel_cases c) as [[_ E] | H]; [by left | by right].
Qed.

End table_claims.

(** ** Algebra of the two table operations *)

Section table_algebra.
Context {V : Type}.

Implicit Types (d t : DataFrame V).

Lemma filter_iff_in {A : Type} (P Q : A → Prop)
    `{!∀ x, Decision (P x), !∀ x, Decision (Q x)} (xs : list A) :
  (∀ x, x ∈ xs → (P x ↔ Q x)) → filter P xs = filter Q xs.
Proof.
  induction xs as [| x xs IH]; intros Hall; [done |].
  rewrite !filter_cons.
  assert (filter P xs = filter Q xs) as ->.
  { apply IH. intros y Hy. apply Hall. by right. }
  assert (P x ↔ Q x) as Hx by (apply Hall; by left).
  destruct (decide (P x)), (decide (Q x)); tauto || done.
Qed.

Lemma filter_relabel_data (cs : list (string * list V)) :
  filter (λ c, c.1 ∉ dropped_columns)
    (prod_map (relabel rename_columns) id <$> cs) =
  prod_map (relabel rename_columns) id <$>
    filter (λ c, c.1 ∉ dropped_columns) cs.
Proof.
  induction cs as [| [c v] cs IH]; [done |].
  rewrite fmap_cons, !filter_cons, IH. cbn [prod_map fst snd].
  pose proof (relabel_dropped c) as Hc.
  destruct (decide (relabel rename_columns c ∉ dropped_columns)),
    (decide (c ∉ dropped_columns)); tauto || done.
Qed.

Lemma dropped_in_renamed (c : string) (cs : list string) :
  c ∈ dropped_columns →
  c ∈ relabel rename_columns <$> cs ↔ c ∈ cs.
Proof.
  intros Hc. rewrite list_elem_of_fmap. split.
  - intros (c' & -> & Hin). apply (proj1 (relabel_dropped c')) in Hc.
    by rewrite (dropped_not_old c' Hc).
  - intros Hin. exists c. split; [| done]. symmetry. by apply dropped_not_old.
Qed.

Lemma missing_labels_renamed t :
  missing_labels dropped_columns
    {| index := index t;
       data := prod_map (relabel rename_columns) id <$> data t;
       intent := intent t |} =
  missing_labels dropped_columns t.
Proof.
  unfold missing_labels. apply filter_iff_in. intros c Hc.
  rewrite columns_rename. by rewrite dropped_in_renamed.
Qed.

(** C8: renaming a renamed table changes nothing, on every table; no
    new label is a source key of the dict. *)
Theorem rename_cols_idempotent t :
  (t1 ← rename_cols t; rename_cols t1) = rename_cols t ∧
  Forall (λ n, rename_columns !! n = None) new_names.
Proof.
  split.
  - unfold mbind, res_mbind. rewrite rename_cols_Ok. cbn [res_bind].
    rewrite rename_cols_Ok. cbn [index data intent]. do 2 f_equal.
    rewrite <- list_fmap_compose. apply list_fmap_ext. intros _ [c v] _.
    cbn. by rewrite relabel_idem.
  - by_eval.
Qed.

Lemma dropped_sub_renamed t :
  dropped_columns ⊆
    columns {| index := index t;
               data := prod_map (relabel rename_columns) id <$> data t;
               intent := intent t |} ↔
  dropped_columns ⊆ columns t.
Proof.
  rewrite columns_rename. split; intros Hs c Hc.
  - by apply (dropped_in_renamed c (columns t) Hc), Hs.
  - by apply (dropped_in_renamed c (columns t) Hc), Hs.
Qed.

(** Both orders return the same table when the seven labels are
    columns. *)
Lemma project_rename_tables_Ok t :
  dropped_columns ⊆ columns t →
  (t1 ← rename_cols t; project t1) =
    Ok {| index := index t;
          data := prod_map (relabel rename_columns) id <$>
                    filter (λ c, c.1 ∉ dropped_columns) (data t);
          intent := intent t |} ∧
  (t1 ← project t; rename_cols t1) =
    Ok {| index := index t;
          data := prod_map (relabel rename_columns) id <$>
                    filter (λ c, c.1 ∉ dropped_columns) (data t);
          intent := intent t |}.
Proof.
  intros Hs. unfold mbind, res_mbind. split.
  - rewrite rename_cols_Ok. cbn [res_bind]. unfold project.
    rewrite drop_raise_Ok by by apply dropped_sub_renamed.
    cbn [index data intent]. by rewrite filter_relabel_data.
  - unfold project. rewrite (drop_raise_Ok _ _ Hs). cbn [res_bind].
    by rewrite rename_cols_Ok.
Qed.

(** Both orders raise [KeyError] when one of the seven labels is no
    column; the labels named depend on whether the column labels the
    drop meets are distinct. *)
Lemma project_rename_tables_Raise t :
  ¬ dropped_columns ⊆ columns t →
  (t1 ← rename_cols t; project t1) =
    Raise (KeyError
             (if decide (NoDup (relabel rename_columns <$> columns t))
              then missing_labels dropped_columns t
              else dropped_columns)) ∧
  (t1 ← project t; rename_cols t1) =
    Raise (KeyError
             (if decide (NoDup (columns t))
              then missing_labels dropped_columns t
              else dropped_columns)).
Proof.
  intros Hn. unfold mbind, res_mbind. split.
  - rewrite rename_cols_Ok. cbn [res_bind]. unfold project.
    rewrite drop_raise_KeyError by by rewrite dropped_sub_renamed.
    unfold not_found. by rewrite missing_labels_renamed, columns_rename.
  - unfold project. by rewrite (drop_raise_KeyError _ _ Hn).
Qed.

End table_algebra.

(** ** The cells on the kernel *)

Section kernel_facts.
Context {V : Type}.

Implicit Types (d t : DataFrame V) (k : kernel V) (l : loc).

Lemma deref_df_is k l d : df_is k l d → deref k = Ok d.
Proof.
  intros [He Hh]. unfold deref, lookup_var, load_obj, mbind, res_mbind.
  rewrite He. cbn [res_bind]. by rewrite Hh.
Qed.

Lemma fresh_not_in_heap k : heap k !! fresh (dom (heap k)) = None.
Proof. apply not_elem_of_dom, is_fresh. Qed.

Lemma cell_load_eq d k :
  cell_load d k =
    Ok {| heap := <[fresh (dom (heap k)) := d]> (heap k);
          env := <["df" := fresh (dom (heap k))]> (env k) |}.
Proof. reflexivity. Qed.

Lemma cell_drop_eq k l t :
  df_is k l t →
  cell_drop k =
    res_bind (λ t', Ok {| heap := <[l := t']> (heap k); env := env k |})
      (project t).
Proof.
  intros [He Hh]. unfold cell_drop, lookup_var, load_obj, mbind, res_mbind.
  rewrite He. cbn [res_bind]. rewrite Hh. reflexivity.
Qed.

Lemma cell_rename_eq k l t :
  df_is k l t →
  cell_rename k =
    Ok {| heap := <[fresh (dom (heap k)) :=
                     {| index := index t;
                        data := prod_map (relabel rename_columns) id <$> data t;
                        intent := intent t |}]> (heap k);
          env := <["df" := fresh (dom (heap k))]> (env k) |}.
Proof.
  intros [He Hh]. unfold cell_rename, lookup_var, load_obj, mbind, res_mbind.
  rewrite He. cbn [res_bind]. rewrite Hh. reflexivity.
Qed.

Lemma lux_set_intent_rows (names : list string) t :
  nrows t ≠ 0 →
  lux_set_intent names t = Ok (set_intent (parse_intent names) t).
Proof. intros H. unfold lux_set_intent. by destruct (decide (nrows t = 0)). Qed.


Lemma lux_set_intent_Ok_inv (names : list string) t t' :
  lux_set_intent names t = Ok t' →
  nrows t ≠ 0 ∧ t' = set_intent (parse_intent names) t.
Proof.
  unfold lux_set_intent. destruct (decide (nrows t = 0)); [done |].
  intros E. by injection E as <-.
Qed.

Lemma cell_intent_eq names k l t :
  df_is k l t →
  cell_intent names k =
    res_bind (λ t', Ok {| heap := <[l := t']> (heap k); env := env k |})
      (lux_set_intent names t).
Proof.
  intros [He Hh]. unfold cell_intent, lookup_var, load_obj, mbind, res_mbind.
  rewrite He. cbn [res_bind]. rewrite Hh. reflexivity.
Qed.

Lemma cell_intent_rows names k l t :
  df_is k l t → nrows t ≠ 0 →
  cell_intent names k =
    Ok {| heap := <[l := set_intent (parse_intent names) t]> (heap k);
          env := env k |}.
Proof.
  intros H Hr. rewrite (cell_intent_eq names k l t H).
  by rewrite (lux_set_intent_rows names t Hr).
Qed.

Lemma cell_intent_Ok_inv names k k' l t :
  df_is k l t → cell_intent names k = Ok k' →
  nrows t ≠ 0 ∧
  k' = {| heap := <[l := set_intent (parse_intent names) t]> (heap k);
          env := env k |}.
Proof.
  intros H E. rewrite (cell_intent_eq names k l t H) in E.
  destruct (lux_set_intent names t) as [t' | e] eqn:El; [| done].
  apply lux_set_intent_Ok_inv in El as [Hr ->]. cbn in E.
  by injection E as <-.
Qed.

Lemma df_is_store k l t t' :
  df_is k l t → df_is {| heap := <[l := t']> (heap k); env := env k |} l t'.
Proof. intros [He _]. split; [done |]. apply lookup_insert_eq. Qed.

Lemma df_is_alloc k l' t' :
  df_is {| heap := <[l' := t']> (heap k); env := <["df" := l']> (env k) |}
    l' t'.
Proof. split; apply lookup_insert_eq. Qed.

Lemma dom_overwrite k l t t' :
  heap k !! l = Some t → dom (<[l := t']> (heap k)) = dom (heap k).
Proof.
  intros Hh. rewrite dom_insert_L. apply elem_of_dom_2 in Hh.
  apply subseteq_union_1_L. by apply singleton_subseteq_l.
Qed.

Lemma cell_drop_in_place k l t : df_is k l t → in_place cell_drop k.
Proof.
  intros H l1 k' He1 Hrun. pose proof H as [He Hh].
  rewrite (cell_drop_eq k l t H) in Hrun.
  destruct (project t) as [t' | e]; [| done].
  cbn in Hrun. injection Hrun as <-. cbn [heap env].
  split; [done |]. by eapply dom_overwrite.
Qed.

Lemma cell_intent_in_place names k l t :
  df_is k l t → in_place (cell_intent names) k.
Proof.
  intros H l1 k' He1 Hrun. pose proof H as [He Hh].
  apply (cell_intent_Ok_inv names k k' l t H) in Hrun as [_ ->].
  cbn [heap env]. split; [done |]. by eapply dom_overwrite.
Qed.

End kernel_facts.

(** ** The notebook, cell by cell *)

Section notebook_claims.
Context {V : Type}.

Implicit Types (d t : DataFrame V) (k : kernel V) (l : loc).

(** C6: assigning the intent only annotates the frame: whatever list
    of names is assigned, listed columns or not, once the assignment has
    returned the rows, the cell values and the order of the columns of
    [df] are as before, as is every other object of the kernel; the
    cell checks nothing itself: with [df] bound it raises exactly what
    Lux's setter raises on that list. *)
Theorem cell_intent_only_annotates names k l t :
  df_is k l t →
  (∀ k', cell_intent names k = Ok k' →
     ∃ t', df_is k' l t' ∧
       nrows t' = nrows t ∧ index t' = index t ∧ data t' = data t ∧
       columns t' = columns t ∧ values t' = values t ∧
       env k' = env k ∧ delete l (heap k') = delete l (heap k)) ∧
  (∀ e, cell_intent names k = Raise e ↔ lux_set_intent names t = Raise e).
Proof.
  intros H. split.
  - intros k' E. apply (cell_intent_Ok_inv names k k' l t H) in E as [_ ->].
    eexists. split; [by eapply df_is_store |]. repeat split.
    cbn [heap]. apply delete_insert_eq.
  - intros e. rewrite (cell_intent_eq names k l t H).
    destruct (lux_set_intent names t); cbn [res_bind]; split; congruence.
Qed.

(** C7, as amended: the drop mutates the loaded object in place; the
    rename creates a new object for the renamed table and rebinds [df]
    to it, the object [df] named before staying as it was; an intent
    assignment that returns keeps the object and leaves its rows and
    cell values as they were. *)
Theorem drop_in_place_rename_fresh k l t :
  df_is k l t →
  in_place cell_drop k ∧
  cell_drop k =
    (t' ← project t; Ok {| heap := <[l := t']> (heap k); env := env k |}) ∧
  (∃ k' l' t', cell_rename k = Ok k' ∧ rename_cols t = Ok t' ∧
     (l' ∉ dom (heap k)) ∧ l' ≠ l ∧ df_is k' l' t' ∧
     heap k' = <[l' := t']> (heap k) ∧ heap k' !! l = Some t) ∧
  (∀ names, in_place (cell_intent names) k ∧
     ∀ k', cell_intent names k = Ok k' →
       ∃ t', heap k' = <[l := t']> (heap k) ∧ env k' = env k ∧
         index t' = index t ∧ data t' = data t).
Proof.
  intros H. pose proof H as [He Hh]. split; [| split; [| split]].
  - by eapply cell_drop_in_place.
  - by apply cell_drop_eq.
  - eexists _, (fresh (dom (heap k))), _.
    split; [by eapply cell_rename_eq |].
    split; [apply rename_cols_Ok |].
    pose proof (fresh_not_in_heap k) as Hf.
    split; [by apply not_elem_of_dom |].
    split; [intros E; rewrite E in Hf; congruence |].
    split; [apply df_is_alloc |]. split; [done |].
    cbn [heap]. rewrite lookup_insert_ne; [done |].
    intros E; rewrite E in Hf; congruence.
  - intros names. split; [by eapply cell_intent_in_place |].
    intros k' E. apply (cell_intent_Ok_inv names k k' l t H) in E as [_ ->].
    by eexists.
Qed.

End notebook_claims.

(** ** The notebook on the AI4I table *)

Section ai4i_claims.
Context {V : Type}.

Implicit Types (d t : DataFrame V) (k : kernel V) (l : loc).

Lemma ai4i_after_drop :
  filter (λ c, c ∉ dropped_columns) ai4i_columns =
    ["Type"; "Air temperature [K]"; "Process temperature [K]";
     "Rotational speed [rpm]"; "Torque [Nm]"; "Tool wear [min]";
     "Machine failure"].
Proof. vm_compute. reflexivity. Qed.

Lemma ai4i_after_rename :
  relabel rename_columns <$>
    ["Type"; "Air temperature [K]"; "Process temperature [K]";
     "Rotational speed [rpm]"; "Torque [Nm]"; "Tool wear [min]";
     "Machine failure"] =
    ["Type"; "Air temperature (K)"; "Process temperature (K)";
     "Rotational speed (rpm)"; "Torque (Nm)"; "Tool wear (min)";
     "Machine failure"].
Proof. vm_compute. reflexivity. Qed.

(** The three cleaning cells, one after the other, on a loaded table
    that has the seven labels. *)
Lemma clean_steps t :
  dropped_columns ⊆ columns t →
  ∃ k0 k1 k2 l0 l2 t1 t2,
    cell_load t empty_kernel = Ok k0 ∧ df_is k0 l0 t ∧
    cell_drop k0 = Ok k1 ∧ df_is k1 l0 t1 ∧
    cell_rename k1 = Ok k2 ∧ df_is k2 l2 t2 ∧
    clean t = Ok k2 ∧
    columns t1 = filter (λ c, c ∉ dropped_columns) (columns t) ∧
    columns t2 = relabel rename_columns <$> columns t1 ∧
    index t1 = index t ∧ index t2 = index t.
Proof.
  intros Hsub.
  pose proof (df_is_alloc (@empty_kernel V)
                (fresh (dom (heap (@empty_kernel V)))) t) as H0.
  pose proof (cell_drop_eq _ _ _ H0) as E1.
  unfold project in E1. rewrite (drop_raise_Ok _ _ Hsub) in E1.
  cbn [res_bind] in E1.
  pose proof (df_is_store _ _ _
    {| index := index t;
       data := filter (λ c, c.1 ∉ dropped_columns) (data t);
       intent := intent t |} H0) as H1.
  cbn [heap env] in H1.
  pose proof (cell_rename_eq _ _ _ H1) as E2.
  eexists _, _, _, _, _, _, _.
  split; [apply cell_load_eq |]. split; [exact H0 |].
  split; [exact E1 |]. split; [exact H1 |].
  split; [exact E2 |]. split; [apply df_is_alloc |].
  split.
  { unfold clean, mbind, res_mbind. rewrite cell_load_eq. cbn [res_bind].
    rewrite E1. cbn [res_bind]. exact E2. }
  split; [apply columns_drop |].
  split; [apply columns_rename |]. done.
Qed.

(** C1: on the AI4I table of 10,000 rows and 14 columns, the drop leaves
    exactly the seven columns named, and after the rename no column
    label, so none of the five new ones, holds a square bracket; the
    rows are all kept. *)
Theorem ai4i_cleaning_scenario t :
  columns t = ai4i_columns →
  Z.of_nat (nrows t) = ai4i_rows →
  ∃ k0 k1 k2 t1 t2,
    cell_load t empty_kernel = Ok k0 ∧
    cell_drop k0 = Ok k1 ∧ deref k1 = Ok t1 ∧
    cell_rename k1 = Ok k2 ∧ deref k2 = Ok t2 ∧
    length (columns t) = 14 ∧
    length (columns t1) = 7 ∧
    columns t1 =
      ["Type"; "Air temperature [K]"; "Process temperature [K]";
       "Rotational speed [rpm]"; "Torque [Nm]"; "Tool wear [min]";
       "Machine failure"] ∧
    columns t2 =
      ["Type"; "Air temperature (K)"; "Process temperature (K)";
       "Rotational speed (rpm)"; "Torque (Nm)"; "Tool wear (min)";
       "Machine failure"] ∧
    new_names ⊆ columns t2 ∧
    Forall (λ c, has_bracket c = false) (columns t2) ∧
    Z.of_nat (nrows t1) = ai4i_rows ∧ Z.of_nat (nrows t2) = ai4i_rows.
Proof.
  intros Hc Hr.
  assert (dropped_columns ⊆ columns t) as Hsub.
  { rewrite Hc. by_eval. }
  destruct (clean_steps t Hsub)
    as (k0 & k1 & k2 & l0 & l2 & t1 & t2 & E0 & H0 & E1 & H1 & E2 & H2 &
        _ & C1 & C2 & I1 & I2).
  rewrite Hc, ai4i_after_drop in C1. rewrite C1, ai4i_after_rename in C2.
  exists k0, k1, k2, t1, t2.
  split; [done |]. split; [done |]. split; [by eapply deref_df_is |].
  split; [done |]. split; [by eapply deref_df_is |].
  unfold nrows. rewrite I1, I2, C1, C2, Hc. repeat split; try done.
  - by_eval.
  - by_eval.
Qed.

(** C10: on the AI4I table, each name assigned to the intent is a
    column of the frame [df] names when its assignment runs: both names
    are columns of the cleaned frame, the first assignment, when it
    returns, leaves them so, and on a table with at least one row both
    assignments return and the notebook runs through; the two names
    are AI4I columns, are not dropped and are no source keys of the
    rename. *)
Theorem intent_names_are_columns t :
  columns t = ai4i_columns →
  ∃ k2 t2,
    clean t = Ok k2 ∧ deref k2 = Ok t2 ∧
    intent_type ⊆ columns t2 ∧ intent_failure ⊆ columns t2 ∧
    (∀ k3, cell_intent intent_type k2 = Ok k3 →
       ∃ t3, deref k3 = Ok t3 ∧ intent_failure ⊆ columns t3) ∧
    (nrows t ≠ 0 →
       ∃ k3 t3 k4,
         cell_intent intent_type k2 = Ok k3 ∧
         deref k3 = Ok t3 ∧ intent_failure ⊆ columns t3 ∧
         cell_intent intent_failure k3 = Ok k4 ∧
         notebook t = Ok k4) ∧
    Forall (λ c, c ∈ ai4i_columns ∧ (c ∉ dropped_columns) ∧ (c ∉ old_names))
      (intent_type ++ intent_failure).
Proof.
  intros Hc.
  assert (dropped_columns ⊆ columns t) as Hsub.
  { rewrite Hc. by_eval. }
  destruct (clean_steps t Hsub)
    as (k0 & k1 & k2 & l0 & l2 & t1 & t2 & _ & _ & _ & _ & _ & H2 &
        E & C1 & C2 & _ & I2).
  rewrite Hc, ai4i_after_drop in C1. rewrite C1, ai4i_after_rename in C2.
  assert (intent_failure ⊆ columns t2) as Hf by (rewrite C2; by_eval).
  exists k2, t2.
  split; [done |]. split; [by eapply deref_df_is |].
  split; [rewrite C2; by_eval |]. split; [exact Hf |].
  split; [| split; [| by_eval]].
  - intros k3 E3.
    apply (cell_intent_Ok_inv _ _ _ _ _ H2) in E3 as [_ ->].
    eexists. split; [eapply deref_df_is, df_is_store, H2 |]. exact Hf.
  - intros Hr.
    assert (nrows t2 ≠ 0) as Hr2 by (unfold nrows in *; by rewrite I2).
    pose proof (cell_intent_rows intent_type _ _ _ H2 Hr2) as E3.
    pose proof (df_is_store _ _ _
      (set_intent (parse_intent intent_type) t2) H2) as H3.
    pose proof (cell_intent_rows intent_failure _ _ _ H3 Hr2) as E4.
    eexists _, _, _. split; [exact E3 |].
    split; [by eapply deref_df_is |]. split; [exact Hf |].
    split; [exact E4 |].
    unfold notebook, mbind, res_mbind. rewrite E. cbn [res_bind].
    rewrite E3. cbn [res_bind]. exact E4.
Qed.

End ai4i_claims.

(** ** The two structural cells in either order *)

Section commute.
Context {V : Type}.

Implicit Types (d t : DataFrame V) (k : kernel V) (l : loc).

Lemma rename_then_drop k l t :
  df_is k l t →
  (k1 ← cell_rename k; k2 ← cell_drop k1; deref k2) =
  (t1 ← rename_cols t; project t1).
Proof.
  intros H. unfold mbind, res_mbind.
  rewrite (cell_rename_eq k l t H), rename_cols_Ok. cbn [res_bind].
  rewrite (cell_drop_eq _ _ _ (df_is_alloc k _ _)).
  destruct (project _) as [t' | e]; [| done]. cbn [res_bind].
  apply deref_df_is with (l := fresh (dom (heap k))).
  split; apply lookup_insert_eq.
Qed.

Lemma drop_then_rename k l t :
  df_is k l t →
  (k1 ← cell_drop k; k2 ← cell_rename k1; deref k2) =
  (t1 ← project t; rename_cols t1).
Proof.
  intros H. unfold mbind, res_mbind. rewrite (cell_drop_eq k l t H).
  destruct (project t) as [t' | e]; [| done]. cbn [res_bind].
  rewrite (cell_rename_eq _ _ _ (df_is_store k l t t' H)), rename_cols_Ok.
  cbn [res_bind]. eapply deref_df_is, df_is_alloc.
Qed.

(** C9: the drop and the rename commute on every table: in either
    order they return the same table, or raise [KeyError] in both
    orders, as functions on tables and as cells run on the frame [df]
    names (the labels the error names can differ between the orders,
    when the rename makes two column labels equal); the seven dropped
    labels are neither source keys nor new labels of the dict. *)
Theorem project_rename_commute t k :
  match (t1 ← rename_cols t; project t1),
        (t1 ← project t; rename_cols t1) with
  | Ok a, Ok b => a = b
  | Raise e1, Raise e2 =>
      e1 = KeyError
             (if decide (NoDup (relabel rename_columns <$> columns t))
              then missing_labels dropped_columns t
              else dropped_columns) ∧
      e2 = KeyError
             (if decide (NoDup (columns t))
              then missing_labels dropped_columns t
              else dropped_columns)
  | _, _ => False
  end ∧
  match (k1 ← cell_rename k; k2 ← cell_drop k1; deref k2),
        (k1 ← cell_drop k; k2 ← cell_rename k1; deref k2) with
  | Ok a, Ok b => a = b
  | Raise _, Raise _ => True
  | _, _ => False
  end ∧
  Forall (λ c, (c ∉ old_names) ∧ (c ∉ new_names)) dropped_columns.
Proof.
  split; [| split; [| by_eval]].
  - destruct (decide (dropped_columns ⊆ columns t)) as [Hs | Hn].
    + by destruct (project_rename_tables_Ok t Hs) as [-> ->].
    + by destruct (project_rename_tables_Raise t Hn) as [-> ->].
  - destruct (env k !! "df") as [l |] eqn:He.
    + destruct (heap k !! l) as [d |] eqn:Hh.
      * rewrite (rename_then_drop k l d), (drop_then_rename k l d); try done.
        destruct (decide (dropped_columns ⊆ columns d)) as [Hs | Hn].
        -- by destruct (project_rename_tables_Ok d Hs) as [-> ->].
        -- by destruct (project_rename_tables_Raise d Hn) as [-> ->].
      * unfold cell_rename, cell_drop, lookup_var, load_obj, mbind, res_mbind.
        rewrite He. cbn [res_bind]. by rewrite Hh.
    + unfold cell_rename, cell_drop, lookup_var, mbind, res_mbind.
      by rewrite He.
Qed.

End commute.

(** Where the two orders raise, the labels named can differ: renamed
    first, [Torque [Nm]] meets the column [Torque (Nm)], the labels
    repeat and the drop names all seven; dropped first, it names the
    six that are missing. *)
Example commute_error_labels :
  (t1 ← rename_cols (sample_frame ["Torque [Nm]"; "Torque (Nm)"; "TWF"] 1);
   project t1) =
    Raise (KeyError dropped_columns) ∧
  (t1 ← project (sample_frame ["Torque [Nm]"; "Torque (Nm)"; "TWF"] 1);
   rename_cols t1) =
    Raise (KeyError ["Product ID"; "HDF"; "PWF"; "OSF"; "RNF"; "UDI"]).
Proof. split; vm_compute; reflexivity. Qed.

(** ** The claims at concrete tables *)

Example sample_kernel_loaded :
  cell_load (sample_frame ai4i_columns 2) empty_kernel = Ok sample_kernel.
Proof. vm_compute. reflexivity. Qed.

Lemma ai4i_cleaning_scenario_witness :
  columns (sample_frame ai4i_columns (Z.to_nat 10000)) = ai4i_columns ∧
  Z.of_nat (nrows (sample_frame ai4i_columns (Z.to_nat 10000))) = ai4i_rows ∧
  ∃ t1 t2 : DataFrame Z,
    length (columns t1) = 7 ∧
    Forall (λ c, has_bracket c = false) (columns t2) ∧
    Z.of_nat (nrows t2) = ai4i_rows.
Proof.
  assert (columns (sample_frame ai4i_columns (Z.to_nat 10000)) = ai4i_columns)
    as Hc by (vm_compute; reflexivity).
  assert (Z.of_nat (nrows (sample_frame ai4i_columns (Z.to_nat 10000)))
          = ai4i_rows) as Hr by (vm_compute; reflexivity).
  split; [exact Hc |]. split; [exact Hr |].
  destruct (ai4i_cleaning_scenario _ Hc Hr)
    as (_ & _ & _ & t1 & t2 & _ & _ & _ & _ & _ & _ & H7 & _ & _ & _ & Hb &
        _ & Hn).
  exists t1, t2. split; [exact H7 |]. split; [exact Hb | exact Hn].
Defined.

Lemma project_column_set_witness :
  dropped_columns ⊆ columns (sample_frame ai4i_columns 2) ∧
  ∃ t', project (sample_frame ai4i_columns 2) = Ok t' ∧
    (list_to_set (columns t') : gset string) =
      list_to_set (columns (sample_frame ai4i_columns 2)) ∖
      list_to_set dropped_columns.
Proof.
  assert (dropped_columns ⊆ columns (sample_frame ai4i_columns 2)) as H
    by by_eval.
  split; [exact H |]. exact (project_column_set _ H).
Defined.

Lemma rename_cols_old_to_new_witness :
  old_names ⊆ columns (sample_frame ai4i_columns 2) ∧
  ∃ t', rename_cols (sample_frame ai4i_columns 2) = Ok t' ∧
    (∀ o, o ∈ old_names → o ∉ columns t') ∧
    (∀ n, n ∈ new_names → n ∈ columns t') ∧
    values t' = values (sample_frame ai4i_columns 2) ∧
    index t' = index (sample_frame ai4i_columns 2).
Proof.
  assert (old_names ⊆ columns (sample_frame ai4i_columns 2)) as H by by_eval.
  split; [exact H |]. exact (rename_cols_old_to_new _ H).
Defined.

(** C4 as stated fails: on a table that lacks four of the five source
    keys the rename returns a table, the one key present renamed. *)
Lemma rename_cols_absent_key_returns :
  "Tool wear [min]" ∈ old_names ∧
  ("Tool wear [min]" ∉ columns (sample_frame ["Type"; "Torque [Nm]"] 2)) ∧
  rename_cols (sample_frame ["Type"; "Torque [Nm]"] 2) =
    Ok (sample_frame ["Type"; "Torque (Nm)"] 2) ∧
  ¬ ∃ e, rename_cols (sample_frame ["Type"; "Torque [Nm]"] 2) = Raise e.
Proof.
  split; [by_eval |]. split; [by_eval |].
  split; [vm_compute; reflexivity |].
  intros [e He]. vm_compute in He. discriminate He.
Qed.

Lemma project_missing_raises_witness :
  "UDI" ∈ dropped_columns ∧
  ("UDI" ∉ columns (sample_frame ["Type"; "TWF"] 2)) ∧
  project (sample_frame ["Type"; "TWF"] 2) =
    Raise (KeyError ["Product ID"; "HDF"; "PWF"; "OSF"; "RNF"; "UDI"]) ∧
  "UDI" ∈ missing_labels dropped_columns (sample_frame ["Type"; "TWF"] 2).
Proof.
  assert ("UDI" ∈ dropped_columns) as H1 by by_eval.
  assert ("UDI" ∉ columns (sample_frame ["Type"; "TWF"] 2)) as H2 by by_eval.
  split; [exact H1 |]. split; [exact H2 |].
  destruct (project_missing_raises _ _ H1 H2) as (E & Hm & _).
  split; [exact E | exact Hm].
Defined.

Lemma cell_intent_only_annotates_witness :
  df_is sample_kernel 0 (sample_frame ai4i_columns 2) ∧
  ∃ k' t', cell_intent ["No such column"] sample_kernel = Ok k' ∧
    df_is k' 0 t' ∧
    index t' = index (sample_frame ai4i_columns 2) ∧
    data t' = data (sample_frame ai4i_columns 2).
Proof.
  assert (df_is sample_kernel 0 (sample_frame ai4i_columns 2)) as H
    by (split; vm_compute; reflexivity).
  split; [exact H |]. eexists.
  assert (cell_intent ["No such column"] sample_kernel = Ok _) as E
    by (vm_compute; reflexivity).
  destruct (proj1 (cell_intent_only_annotates ["No such column"] _ _ _ H) _ E)
    as (t' & H' & _ & Hi & Hd & _).
  exists t'. split; [exact E |]. split; [exact H' |].
  split; [exact Hi | exact Hd].
Defined.

(** C7 as stated fails: after the rename cell [df] names a second
    object, and the loaded one still carries its old labels. *)
Lemma cell_rename_not_in_place :
  ¬ in_place cell_rename sample_kernel ∧
  ∃ k', cell_rename sample_kernel = Ok k' ∧
    env sample_kernel !! "df" = Some 0 ∧ env k' !! "df" = Some 1 ∧
    size (heap sample_kernel) = 1 ∧ size (heap k') = 2 ∧
    heap k' !! 0 = Some (sample_frame ai4i_columns 2) ∧
    "Torque [Nm]" ∈ columns (sample_frame ai4i_columns 2).
Proof.
  split.
  - intros H. destruct (H 0 _ eq_refl eq_refl) as [He _].
    vm_compute in He. discriminate He.
  - eexists. split; [reflexivity |]. repeat split; try by_eval.
    all: vm_compute; reflexivity.
Qed.

Lemma drop_in_place_rename_fresh_witness :
  df_is sample_kernel 0 (sample_frame ai4i_columns 2) ∧
  in_place cell_drop sample_kernel ∧
  ∃ k' l', cell_rename sample_kernel = Ok k' ∧ l' ≠ 0 ∧
    env k' !! "df" = Some l' ∧
    heap k' !! 0 = Some (sample_frame ai4i_columns 2).
Proof.
  assert (df_is sample_kernel 0 (sample_frame ai4i_columns 2)) as H
    by (split; vm_compute; reflexivity).
  split; [exact H |].
  destruct (drop_in_place_rename_fresh _ _ _ H)
    as (Hd & _ & (k' & l' & t' & E & _ & _ & Hne & [He _] & _ & Hold) & _).
  split; [exact Hd |]. exists k', l'. split; [exact E |].
  split; [exact Hne |]. split; [exact He | exact Hold].
Defined.

Lemma intent_names_are_columns_witness :
  columns (sample_frame ai4i_columns 2) = ai4i_columns ∧
  nrows (sample_frame ai4i_columns 2) ≠ 0 ∧
  ∃ k2 k3 k4,
    clean (sample_frame ai4i_columns 2) = Ok k2 ∧
    cell_intent intent_type k2 = Ok k3 ∧
    cell_intent intent_failure k3 = Ok k4 ∧
    notebook (sample_frame ai4i_columns 2) = Ok k4.
Proof.
  assert (columns (sample_frame ai4i_columns 2) = ai4i_columns) as Hc
    by (vm_compute; reflexivity).
  assert (nrows (sample_frame ai4i_columns 2) ≠ 0) as Hr by by_eval.
  split; [exact Hc |]. split; [exact Hr |].
  destruct (intent_names_are_columns _ Hc)
    as (k2 & t2 & E & _ & _ & _ & _ & Hrun & _).
  destruct (Hrun Hr) as (k3 & t3 & k4 & E3 & _ & _ & E4 & En).
  exists k2, k3, k4. split; [exact E |]. split; [exact E3 |].
  split; [exact E4 | exact En].
Defined.

(** ** Further properties of the cells *)

Section cell_inversion.
Context {V : Type}.

Implicit Types (d t : DataFrame V) (k : kernel V) (l : loc).

Lemma filter_all {A : Type} (P : A → Prop) `{!∀ x, Decision (P x)}
    (xs : list A) :
  Forall P xs → filter P xs = xs.
Proof.
  induction 1 as [| x xs Hx _ IH]; [done |].
  rewrite filter_cons, IH. by destruct (decide (P x)).
Qed.

Lemma project_Ok_inv t t' :
  project t = Ok t' →
  dropped_columns ⊆ columns t ∧
  t' = {| index := index t;
          data := filter (λ c, c.1 ∉ dropped_columns) (data t);
          intent := intent t |}.
Proof.
  intros E. destruct (decide (dropped_columns ⊆ columns t)) as [Hs | Hs].
  - split; [done |]. unfold project in E.
    rewrite (drop_raise_Ok _ _ Hs) in E. by injection E as <-.
  - unfold project in E. by rewrite (drop_raise_KeyError _ _ Hs) in E.
Qed.

(** Either [df] names a live frame, or every cell but the load raises
    [NameError]. *)
Lemma df_is_or_NameError k :
  (∃ l t, df_is k l t) ∨
  (cell_drop k = Raise (NameError "df") ∧
   cell_rename k = Raise (NameError "df") ∧
   ∀ names, cell_intent names k = Raise (NameError "df")).
Proof.
  destruct (env k !! "df") as [l |] eqn:He.
  - destruct (heap k !! l) as [t |] eqn:Hh.
    + left. by exists l, t.
    + right.
      unfold cell_drop, cell_rename, cell_intent, lookup_var, load_obj,
        mbind, res_mbind.
      rewrite He. cbn [res_bind]. by rewrite Hh.
  - right.
    unfold cell_drop, cell_rename, cell_intent, lookup_var, mbind, res_mbind.
    by rewrite He.
Qed.

Lemma cell_drop_Ok_inv k k1 :
  cell_drop k = Ok k1 →
  ∃ l t t', df_is k l t ∧ project t = Ok t' ∧
    k1 = {| heap := <[l := t']> (heap k); env := env k |}.
Proof.
  intros E. destruct (df_is_or_NameError k) as [(l & t & H) | (E' & _)].
  - rewrite (cell_drop_eq k l t H) in E.
    destruct (project t) as [t' | e] eqn:Ep; [| done].
    cbn in E. injection E as <-. by exists l, t, t'.
  - by rewrite E' in E.
Qed.

Lemma columns_after_project t t' :
  project t = Ok t' →
  columns t' = filter (λ c, c ∉ dropped_columns) (columns t).
Proof. intros E. apply project_Ok_inv in E as [_ ->]. apply columns_drop. Qed.

Lemma missing_after_project t t' :
  project t = Ok t' → missing_labels dropped_columns t' = dropped_columns.
Proof.
  intros E. unfold missing_labels. rewrite (columns_after_project t t' E).
  apply filter_all, Forall_forall. intros c Hc Hin.
  apply list_elem_of_filter in Hin as [Hn _]. by apply Hn.
Qed.

Lemma project_after_project t t' :
  project t = Ok t' → project t' = Raise (KeyError dropped_columns).
Proof.
  intros E. pose proof (missing_after_project t t' E) as Hm.
  unfold project, drop, not_found. rewrite Hm. cbn.
  by destruct (decide (NoDup (columns t'))).
Qed.

(** The drop cell cannot be run twice: once it has returned, running
    it again raises [KeyError] naming all seven labels, since [df]
    names the frame it has just reduced. *)
Theorem cell_drop_twice_raises k k1 :
  cell_drop k = Ok k1 →
  cell_drop k1 = Raise (KeyError dropped_columns).
Proof.
  intros E. apply cell_drop_Ok_inv in E as (l & t & t' & H & Ep & ->).
  rewrite (cell_drop_eq _ l t' (df_is_store k l t t' H)).
  by rewrite (project_after_project t t' Ep).
Qed.

(** A drop that returns keeps the row labels and every column that
    carries none of the seven labels, with its values and in the
    order the columns had; no column of the result carries one of the
    seven labels. *)
Theorem project_keeps_the_rest t t' :
  project t = Ok t' →
  index t' = index t ∧
  sublist (data t') (data t) ∧
  (∀ c vs, (c, vs) ∈ data t → c ∉ dropped_columns → (c, vs) ∈ data t') ∧
  Forall (λ c, c ∉ columns t') dropped_columns.
Proof.
  intros E. pose proof (columns_after_project t t' E) as Hc.
  apply project_Ok_inv in E as [_ ->]. cbn [index data].
  split; [done |]. split; [apply sublist_filter |]. split.
  - intros c vs Hin Hn. by apply list_elem_of_filter.
  - apply Forall_forall. intros c Hd Hin. rewrite Hc in Hin.
    apply list_elem_of_filter in Hin as [Hn _]. by apply Hn.
Qed.

End cell_inversion.

(** ** Counting columns, and the notebook as a whole *)

Section notebook_whole.
Context {V : Type}.

Implicit Types (d t : DataFrame V) (k : kernel V) (l : loc).

Lemma dropped_columns_NoDup : NoDup dropped_columns.
Proof. by_eval. Qed.

Lemma length_filter_out (ls ds : list string) :
  NoDup ls → NoDup ds → ds ⊆ ls →
  length (filter (λ c, c ∉ ds) ls) + length ds = length ls.
Proof.
  intros Hl Hd Hsub.
  pose proof (filter_app_complement (λ c, c ∈ ds) ls) as Hp.
  apply Permutation_length in Hp. rewrite length_app in Hp.
  assert (filter (λ c, c ∈ ds) ls ≡ₚ ds) as Hq.
  { apply NoDup_Permutation; [by apply NoDup_filter | done |].
    intros c. rewrite list_elem_of_filter. split; [tauto |].
    intros Hc. split; [done | by apply Hsub]. }
  apply Permutation_length in Hq. rewrite Hq in Hp. lia.
Qed.

(** On a frame whose column labels are distinct and include the seven
    labels, the drop removes exactly seven columns and the labels left
    are distinct. *)
Theorem project_column_count t :
  NoDup (columns t) → dropped_columns ⊆ columns t →
  ∃ t', project t = Ok t' ∧
    length (columns t') + 7 = length (columns t) ∧
    NoDup (columns t').
Proof.
  intros Hn Hs. eexists. split; [by apply drop_raise_Ok |].
  rewrite columns_drop. split; [| by apply NoDup_filter].
  apply (length_filter_out _ _ Hn dropped_columns_NoDup Hs).
Qed.







End notebook_whole.

(** ** What the rename does to the labels *)

Section rename_labels.
Context {V : Type}.

Implicit Types (d t : DataFrame V).

Lemma rename_pairs_new_inj (x y n : string) :
  (x, n) ∈ rename_pairs → (y, n) ∈ rename_pairs → x = y.
Proof.
  intros Hx Hy. unfold rename_pairs in Hx, Hy.
  split_elem Hx; split_elem Hy; by simplify_eq.
Qed.

Lemma relabel_new (c : string) :
  (c, relabel rename_columns c) ∈ rename_pairs →
  relabel rename_columns c ∈ new_names ∧ c ∈ old_names.
Proof.
  intros H. unfold new_names, old_names. split.
  - apply list_elem_of_fmap. by exists (c, relabel rename_columns c).
  - apply list_elem_of_fmap. by exists (c, relabel rename_columns c).
Qed.

Lemma relabel_inj_on (cs : list string) :
  Forall (λ n, n ∉ cs) new_names →
  ∀ x y, x ∈ cs → y ∈ cs →
    relabel rename_columns x = relabel rename_columns y → x = y.
Proof.
  intros Hnew x y Hx Hy E. rewrite Forall_forall in Hnew.
  destruct (relabel_cases x) as [[_ Ex] | Px],
    (relabel_cases y) as [[_ Ey] | Py].
  - congruence.
  - apply relabel_new in Py as [Py _]. rewrite <- E, Ex in Py.
    by destruct (Hnew x Py).
  - apply relabel_new in Px as [Px _]. rewrite E, Ey in Px.
    by destruct (Hnew y Px).
  - rewrite E in Px. by apply (rename_pairs_new_inj x y _ Px Py).
Qed.

(** The rename keeps the number of columns, and keeps the labels
    distinct when they were distinct and none of the five new labels
    was a column already. *)
Theorem rename_cols_keeps_distinct t :
  NoDup (columns t) → Forall (λ n, n ∉ columns t) new_names →
  ∃ t', rename_cols t = Ok t' ∧
    NoDup (columns t') ∧ length (columns t') = length (columns t).
Proof.
  intros Hn Hnew. eexists. split; [apply rename_cols_Ok |].
  rewrite columns_rename. split; [| apply length_fmap].
  apply NoDup_fmap_2_strong; [| done]. by apply relabel_inj_on.
Qed.

Lemma has_bracket_relabel (c : string) :
  has_bracket (relabel rename_columns c) = true ↔
  has_bracket c = true ∧ c ∉ old_names.
Proof.
  destruct (relabel_cases c) as [[Hn E] | Hp].
  - rewrite E. tauto.
  - apply relabel_new in Hp as [Hnew Hold].
    pose proof new_names_no_bracket as Hb. rewrite Forall_forall in Hb.
    rewrite (Hb _ Hnew). split; [done | tauto].
Qed.

Lemma filter_bracket_relabel (cs : list string) :
  filter (λ c, has_bracket c = true) (relabel rename_columns <$> cs) =
  filter (λ c, has_bracket c = true ∧ c ∉ old_names) cs.
Proof.
  induction cs as [| c cs IH]; [done |].
  rewrite fmap_cons, !filter_cons, IH.
  pose proof (has_bracket_relabel c) as Hc.
  destruct (decide (has_bracket (relabel rename_columns c) = true)) as [H | H],
    (decide (has_bracket c = true ∧ c ∉ old_names)) as [H' | H'];
    try tauto.
  destruct H' as [_ H']. by rewrite (relabel_other c H').
Qed.

(** The rename clears the square brackets of its five source labels
    only: the labels that still hold a bracket afterwards are the
    bracketed labels of the input that are no source keys, in their
    order. *)
Theorem rename_cols_brackets_left t :
  ∃ t', rename_cols t = Ok t' ∧
    filter (λ c, has_bracket c = true) (columns t') =
    filter (λ c, has_bracket c = true ∧ c ∉ old_names) (columns t).
Proof.
  eexists. split; [apply rename_cols_Ok |].
  rewrite columns_rename. apply filter_bracket_relabel.
Qed.

End rename_labels.

(** A new label that is a column already collides with the renamed
    one. *)
Example rename_cols_collision :
  (t ← rename_cols (sample_frame ["Torque [Nm]"; "Torque (Nm)"] 1);
   Ok (columns t)) =
  Ok ["Torque (Nm)"; "Torque (Nm)"].
Proof. vm_compute. reflexivity. Qed.

(** ** Shape of the frame, and the objects of the kernel *)

Section kernel_more.
Context {V : Type}.

Implicit Types (d t : DataFrame V) (k : kernel V) (l : loc).

Lemma rectangular_project t t' :
  rectangular t → project t = Ok t' → rectangular t' ∧ nrows t' = nrows t.
Proof.
  intros Hr E. apply project_Ok_inv in E as [_ ->]. split; [| done].
  unfold rectangular, nrows in *. cbn [index data].
  apply Forall_forall. intros c Hc.
  apply list_elem_of_filter in Hc as [_ Hc].
  rewrite Forall_forall in Hr. by apply Hr.
Qed.

Lemma rectangular_rename t :
  rectangular t →
  rectangular {| index := index t;
                 data := prod_map (relabel rename_columns) id <$> data t;
                 intent := intent t |}.
Proof.
  intros Hr. unfold rectangular, nrows in *. cbn [index data].
  apply Forall_fmap. eapply Forall_impl; [exact Hr |].
  by intros [c vs].
Qed.

(** The cells keep the frame rectangular: when [df] names a frame with
    one value per row in every column, then after the drop, after the
    rename and after an intent assignment that returns [df] names a
    frame that again has one value per row in every column, with as
    many rows. *)
Theorem cells_keep_rectangular k l t :
  df_is k l t → rectangular t →
  (∀ k', cell_drop k = Ok k' →
     ∃ t', df_is k' l t' ∧ rectangular t' ∧ nrows t' = nrows t) ∧
  (∃ k' l' t', cell_rename k = Ok k' ∧
     df_is k' l' t' ∧ rectangular t' ∧ nrows t' = nrows t) ∧
  (∀ names k', cell_intent names k = Ok k' →
     ∃ t', df_is k' l t' ∧ rectangular t' ∧ nrows t' = nrows t).
Proof.
  intros H Hr. split; [| split].
  - intros k' E. apply cell_drop_Ok_inv in E as (l1 & t1 & t' & H1 & Ep & ->).
    destruct H as [He Hh], H1 as [He1 Hh1].
    assert (l1 = l) as -> by congruence.
    assert (t1 = t) as -> by congruence.
    exists t'. split; [split; [done | apply lookup_insert_eq] |].
    by apply rectangular_project.
  - eexists _, _, _. split; [by eapply cell_rename_eq |].
    split; [apply df_is_alloc |]. split; [by apply rectangular_rename | done].
  - intros names k' E.
    apply (cell_intent_Ok_inv names k k' l t H) in E as [_ ->].
    eexists. split; [by eapply df_is_store |]. done.
Qed.

(** Which object the drop mutates depends on the order of the two
    cells: run after the rename it works on the renamed copy and the
    object [df] named at first stays as loaded; run before, that
    object loses the seven columns. *)
Theorem loaded_object_by_order k l t :
  df_is k l t → dropped_columns ⊆ columns t →
  (∃ k1 k2, cell_rename k = Ok k1 ∧ cell_drop k1 = Ok k2 ∧
     heap k2 !! l = Some t) ∧
  (∃ k1 k2 t', cell_drop k = Ok k1 ∧ cell_rename k1 = Ok k2 ∧
     project t = Ok t' ∧ heap k2 !! l = Some t').
Proof.
  intros H Hs. pose proof H as [He Hh].
  pose proof (fresh_not_in_heap k) as Hf.
  assert (fresh (dom (heap k)) ≠ l) as Hne.
  { intros E. rewrite E in Hf. congruence. }
  split.
  - pose proof (cell_rename_eq k l t H) as E1.
    match type of E1 with _ = Ok ?k1 =>
      pose proof (df_is_alloc _ _ _ : df_is k1 _ _) as H1 end.
    pose proof (cell_drop_eq _ _ _ H1) as E2.
    unfold project in E2. rewrite drop_raise_Ok in E2.
    + cbn [res_bind] in E2. eexists _, _.
      split; [exact E1 |]. split; [exact E2 |]. cbn [heap].
      by rewrite !lookup_insert_ne.
    + rewrite columns_rename. intros c Hc.
      apply dropped_in_renamed; [done | by apply Hs].
  - pose proof (cell_drop_eq k l t H) as E1.
    unfold project in E1. rewrite (drop_raise_Ok _ _ Hs) in E1.
    cbn [res_bind] in E1.
    match type of E1 with _ = Ok ?k1 =>
      pose proof (df_is_store k l t _ H : df_is k1 _ _) as H1 end.
    pose proof (cell_rename_eq _ _ _ H1) as E2.
    eexists _, _, _. split; [exact E1 |]. split; [exact E2 |].
    split; [by apply drop_raise_Ok |]. cbn [heap].
    rewrite lookup_insert_ne; [apply lookup_insert_eq |].
    rewrite dom_insert_L. intros E.
    pose proof (is_fresh ({[l]} ∪ dom (heap k))) as Hfr.
    rewrite E in Hfr. apply Hfr, elem_of_union_l, elem_of_singleton.
    reflexivity.
Qed.

(** Loading again starts afresh: whatever the kernel holds, the frame
    [df] names after the load, the drop and the rename is the one the
    drop and the rename make of the frame the file parses to, and the
    run stops with the error of [pd.read_csv] when the file is missing,
    has no header or cannot be parsed; a load that returns leaves every
    object of the kernel as it is and binds [df] to the parsed frame. *)
Theorem reload_then_clean (f : csv_file V) k :
  (k0 ← cell_read_csv f k; k1 ← cell_drop k0; k2 ← cell_rename k1; deref k2)
    = (t ← read_csv f; t1 ← project t; rename_cols t1) ∧
  match cell_read_csv f k with
  | Ok k0 => ∃ t, f = Parses t ∧ heap k ⊆ heap k0 ∧ deref k0 = Ok t
  | Raise e =>
      read_csv f = Raise e ∧
      e ∈ [FileNotFoundError csv_path; EmptyDataError; ParserError]
  end.
Proof.
  destruct f as [| | | t].
  - split; [reflexivity |]. split; [reflexivity |].
    repeat first [by left | right].
  - split; [reflexivity |]. split; [reflexivity |].
    repeat first [by left | right].
  - split; [reflexivity |]. split; [reflexivity |].
    repeat first [by left | right].
  - change (cell_read_csv (Parses t) k) with (cell_load t k).
    rewrite cell_load_eq. split.
    + exact (drop_then_rename _ _ t (df_is_alloc k _ t)).
    + exists t. split; [done |]. split.
      * apply insert_subseteq, fresh_not_in_heap.
      * eapply deref_df_is, df_is_alloc.
Qed.

End kernel_more.

(** ** Running the rename cell again *)

Section rerun.
Context {V : Type}.

Implicit Types (d t : DataFrame V) (k : kernel V) (l : loc).

Lemma relabel_twice_data (cs : list (string * list V)) :
  prod_map (relabel rename_columns) id <$>
    (prod_map (relabel rename_columns) id <$> cs) =
  prod_map (relabel rename_columns) id <$> cs.
Proof.
  rewrite <- list_fmap_compose. apply list_fmap_ext. intros _ [c vs] _.
  cbn. by rewrite relabel_idem.
Qed.

(** Unlike the drop cell, the rename cell can be run again: the second
    run returns, and [df] then names a frame equal to the one it named
    after the first run; the two runs fail alike when [df] is not
    bound. *)
Theorem cell_rename_rerun k :
  (k1 ← cell_rename k; k2 ← cell_rename k1; deref k2) =
  (k1 ← cell_rename k; deref k1).
Proof.
  destruct (df_is_or_NameError k) as [(l & t & H) | (_ & E & _)].
  - unfold mbind, res_mbind. rewrite (cell_rename_eq k l t H).
    cbn [res_bind].
    rewrite (cell_rename_eq _ _ _ (df_is_alloc k _ _)). cbn [res_bind].
    etrans; [eapply deref_df_is, df_is_alloc |].
    symmetry. etrans; [eapply deref_df_is, df_is_alloc |].
    cbn [index data intent]. by rewrite relabel_twice_data.
  - unfold mbind, res_mbind. by rewrite E.
Qed.

End rerun.

(** ** The further properties at concrete tables *)

Lemma cell_drop_twice_raises_witness :
  ∃ k1, cell_drop sample_kernel = Ok k1 ∧
    cell_drop k1 = Raise (KeyError dropped_columns).
Proof.
  eexists. assert (cell_drop sample_kernel = Ok _) as E
    by (vm_compute; reflexivity).
  split; [exact E |]. exact (cell_drop_twice_raises _ _ E).
Defined.

Lemma project_keeps_the_rest_witness :
  ∃ t', project (sample_frame ai4i_columns 2) = Ok t' ∧
    index t' = index (sample_frame ai4i_columns 2) ∧
    sublist (data t') (data (sample_frame ai4i_columns 2)) ∧
    Forall (λ c, c ∉ columns t') dropped_columns.
Proof.
  eexists. assert (project (sample_frame ai4i_columns 2) = Ok _) as E
    by (vm_compute; reflexivity).
  split; [exact E |].
  destruct (project_keeps_the_rest _ _ E) as (Hi & Hs & _ & Hd).
  split; [exact Hi |]. split; [exact Hs | exact Hd].
Defined.

Lemma project_column_count_witness :
  NoDup (columns (sample_frame ai4i_columns 2)) ∧
  dropped_columns ⊆ columns (sample_frame ai4i_columns 2) ∧
  ∃ t', project (sample_frame ai4i_columns 2) = Ok t' ∧
    length (columns t') + 7 = length (columns (sample_frame ai4i_columns 2)) ∧
    NoDup (columns t').
Proof.
  assert (NoDup (columns (sample_frame ai4i_columns 2))) as Hn by by_eval.
  assert (dropped_columns ⊆ columns (sample_frame ai4i_columns 2)) as Hs
    by by_eval.
  split; [exact Hn |]. split; [exact Hs |].
  exact (project_column_count _ Hn Hs).
Defined.

Lemma rename_cols_keeps_distinct_witness :
  NoDup (columns (sample_frame ai4i_columns 2)) ∧
  Forall (λ n, n ∉ columns (sample_frame ai4i_columns 2)) new_names ∧
  ∃ t', rename_cols (sample_frame ai4i_columns 2) = Ok t' ∧
    NoDup (columns t') ∧
    length (columns t') = length (columns (sample_frame ai4i_columns 2)).
Proof.
  assert (NoDup (columns (sample_frame ai4i_columns 2))) as Hn by by_eval.
  assert (Forall (λ n, n ∉ columns (sample_frame ai4i_columns 2)) new_names)
    as Hf by by_eval.
  split; [exact Hn |]. split; [exact Hf |].
  exact (rename_cols_keeps_distinct _ Hn Hf).
Defined.

Lemma cells_keep_rectangular_witness :
  df_is sample_kernel 0 (sample_frame ai4i_columns 2) ∧
  rectangular (sample_frame ai4i_columns 2) ∧
  ∃ k' l' t', cell_rename sample_kernel = Ok k' ∧
    df_is k' l' t' ∧ rectangular t' ∧
    nrows t' = nrows (sample_frame ai4i_columns 2).
Proof.
  assert (df_is sample_kernel 0 (sample_frame ai4i_columns 2)) as H
    by (split; vm_compute; reflexivity).
  assert (rectangular (sample_frame ai4i_columns 2)) as Hr by by_eval.
  split; [exact H |]. split; [exact Hr |].
  exact (proj1 (proj2 (cells_keep_rectangular _ _ _ H Hr))).
Defined.

Lemma loaded_object_by_order_witness :
  df_is sample_kernel 0 (sample_frame ai4i_columns 2) ∧
  dropped_columns ⊆ columns (sample_frame ai4i_columns 2) ∧
  ∃ k1 k2, cell_rename sample_kernel = Ok k1 ∧ cell_drop k1 = Ok k2 ∧
    heap k2 !! 0 = Some (sample_frame ai4i_columns 2).
Proof.
  assert (df_is sample_kernel 0 (sample_frame ai4i_columns 2)) as H
    by (split; vm_compute; reflexivity).
  assert (dropped_columns ⊆ columns (sample_frame ai4i_columns 2)) as Hs
    by by_eval.
  split; [exact H |]. split; [exact Hs |].
  exact (proj1 (loaded_object_by_order _ _ _ H Hs)).
Defined.
